(** * Historian connectors of the Watson IoT Platform SDK

    A shallow embedding of [src/wiotp/sdk/api/dsc/connectors.py]: the
    [Connector] item, the [IterableConnectorList] and the [Connectors]
    collection with its [find], [create] and [update] operations, followed
    by the properties of the specification that concern them.

    Python objects are records, Python dictionaries are [gmap string value],
    exceptions are an error type, and every method that can talk to the
    HTTP transport threads the list of requests issued so far. *)

From stdpp Require Import gmap strings list fin_maps.
From Stdlib Require Import ZArith Ascii.

Set Warnings "-register-all".
Local Open Scope Z_scope.

(** ** Python and JSON values *)

(** The values that travel through this module: the arguments of the
    methods and the decoded JSON bodies.  Numbers are kept to integers,
    no operation of the module computes with them. *)
Inductive value : Type :=
  | VNone
  | VBool (b : bool)
  | VInt (z : Z)
  | VStr (s : string)
  | VList (l : list value)
  | VDict (d : gmap string value).

Abbreviation dict := (gmap string value).

(** Python truth value testing, as used by [if x:]. *)
Definition truthy (v : value) : bool :=
  match v with
  | VNone => false
  | VBool b => b
  | VInt z => negb (z =? 0)
  | VStr s => negb (String.eqb s "")
  | VList l => match l with [] => false | _ :: _ => true end
  | VDict d => negb (bool_decide (dom d = ∅))
  end.

(** [v != None]. *)
Definition ne_None (v : value) : bool :=
  match v with
  | VNone => false
  | _ => true
  end.

(** [template % (arg)] for a string [arg] and a template with [%s]
    directives only: the first directive is replaced by the argument. *)
Fixpoint format_s (template arg : string) : string :=
  match template with
  | EmptyString => EmptyString
  | String c rest =>
      match c, rest with
      | "%"%char, String "s"%char rest' => arg +:+ rest'
      | _, _ => String c (format_s rest arg)
      end
  end.

(** ** The HTTP transport *)

Inductive verb : Type := GET | POST | PUT.

Record Request : Type := mkRequest {
  method : verb;
  url : string;
  data : dict
}.

(** What the module reads of a response: [r.status_code] and [r.json()]. *)
Record Response : Type := mkResponse {
  status_code : Z;
  json : value
}.

(** Modelled from the spec: the transport collaborator [apiClient] is not
    part of this file.  Section 6 gives its interface: [get], [post] and
    [put] take a URL and a body and return a status code and a JSON body.
    The server may answer according to everything it was sent before. *)
Record ApiClient : Type := mkApiClient {
  server : list Request -> Request -> Response
}.

(** ** Exceptions and effects *)

Inductive exn : Type :=
  | KeyError (key : string)
  | TypeError
  | ApiException (response : Response).

Inductive result (A : Type) : Type :=
  | Ok (a : A)
  | Raise (e : exn).
Arguments Ok {A} a.
Arguments Raise {A} e.

#[global] Instance result_ret : MRet result := fun A a => Ok a.
#[global] Instance result_bind : MBind result := fun A B k m =>
  match m with
  | Ok a => k a
  | Raise e => Raise e
  end.

#[global] Instance result_fmap : FMap result := fun A B f m =>
  match m with
  | Ok a => Ok (f a)
  | Raise e => Raise e
  end.

(** Computations over a state [S] that may raise: the state at the point
    of the exception is kept. *)
Definition SE (S A : Type) : Type := S -> result A * S.

#[global] Instance SE_ret S : MRet (SE S) := fun A a s => (Ok a, s).
#[global] Instance SE_bind S : MBind (SE S) := fun A B k m s =>
  match m s with
  | (Ok a, s') => k a s'
  | (Raise e, s') => (Raise e, s')
  end.

Definition raise {S A} (e : exn) : SE S A := fun s => (Raise e, s).
Definition lift {S A} (r : result A) : SE S A := fun s => (r, s).

(** Methods that may use the transport run over the requests issued so
    far, oldest first. *)
Abbreviation Net := (SE (list Request)).

Definition request (apiClient : ApiClient) (m : verb) (u : string) (body : dict)
  : Net Response :=
  fun log =>
    let req := mkRequest m u body in
    (Ok (server apiClient log req), log ++ [req]).

Definition get (apiClient : ApiClient) (u : string) (parameters : dict) :=
  request apiClient GET u parameters.
Definition post (apiClient : ApiClient) (u : string) (body : dict) :=
  request apiClient POST u body.
Definition put (apiClient : ApiClient) (u : string) (body : dict) :=
  request apiClient PUT u body.

(** ** Dictionaries *)

(** [d[key]]: a missing key raises [KeyError]. *)
Definition getitem (d : dict) (key : string) : result value :=
  match d !! key with
  | Some v => Ok v
  | None => Raise (KeyError key)
  end.

(** [key in d]. *)
Definition contains (d : dict) (key : string) : bool :=
  bool_decide (is_Some (d !! key)).

(** [f(name=..., **v)]: the value after [**] must be a mapping, and none
    of its keys may name a parameter that is already bound. *)
Definition unpack (bound : list string) (v : value) : result dict :=
  match v with
  | VDict d =>
      if forallb (fun k => negb (contains d k)) bound then Ok d
      else Raise TypeError
  | _ => Raise TypeError
  end.

(** ** Sub-resource handles *)

Module Destinations.

(** Modelled from the spec: the class [Destinations] is in another file.
    The glossary treats the destinations of a connector as an opaque
    nested collaborator: the handle keeps what it was built from. *)
Record t : Type := mk {
  _apiClient : ApiClient;
  connectorId : value;
  connectorType : value
}.

(** Modelled from the spec: building the handle stores the arguments. *)
Definition __init__ (apiClient : ApiClient) (connectorId connectorType : value) : t :=
  mk apiClient connectorId connectorType.

End Destinations.

Module ForwardingRules.

(** Modelled from the spec: the class [ForwardingRules] is in another
    file, an opaque nested collaborator like [Destinations]. *)
Record t : Type := mk {
  _apiClient : ApiClient;
  connectorId : value
}.

(** Modelled from the spec: building the handle stores the arguments. *)
Definition __init__ (apiClient : ApiClient) (connectorId : value) : t :=
  mk apiClient connectorId.

End ForwardingRules.

(** ** class Connector *)

Module Connector.

(** Modelled from the spec: the base class [RestApiItemBase] is in
    another file; section 3 calls the item a view backed by a
    string-keyed mapping, and [__init__] below initialises it with
    [dict.__init__], so that reading a missing key raises [KeyError].
    The object is that dictionary ([mapping], the items of [self]) with
    the three attributes [__init__] sets beside it. *)
Record t : Type := mk {
  _apiClient : ApiClient;
  destinations : Destinations.t;
  rules : ForwardingRules.t;
  mapping : dict
}.

(** [Connector(apiClient, **kwargs)]. *)
Definition __init__ (apiClient : ApiClient) (kwargs : dict) : result t :=
  id ← getitem kwargs "id";
  type ← getitem kwargs "type";
  let destinations := Destinations.__init__ apiClient id type in
  id' ← getitem kwargs "id";
  let rules := ForwardingRules.__init__ apiClient id' in
  mret (mk apiClient destinations rules kwargs).

(** Reading a property runs over the object. *)
Abbreviation Obj := (SE t).

(** [self[key]] and [key in self]. *)
Definition self_getitem (key : string) : Obj value :=
  fun self => (getitem (mapping self) key, self).
Definition self_contains (key : string) : Obj bool :=
  fun self => (Ok (contains (mapping self) key), self).

Definition serviceId : Obj value := self_getitem "serviceId".

Definition connectorType : Obj value := self_getitem "type".

Definition configuration : Obj value :=
  present ← self_contains "configuration";
  if (present : bool) then self_getitem "configuration"
  else mret VNone.

Definition adminDisabled : Obj value := self_getitem "adminDisabled".

Definition enabled : Obj value := self_getitem "enabled".

Definition timezone : Obj value := self_getitem "timezone".

(** The properties the class defines. *)
Inductive property : Type :=
  | PserviceId | PconnectorType | Pconfiguration
  | PadminDisabled | Penabled | Ptimezone.

Definition read (p : property) : Obj value :=
  match p with
  | PserviceId => serviceId
  | PconnectorType => connectorType
  | Pconfiguration => configuration
  | PadminDisabled => adminDisabled
  | Penabled => enabled
  | Ptimezone => timezone
  end.

(** A caller that reads properties one after the other on the same
    object, catching what each read raises. *)
Fixpoint read_all (ps : list property) (self : t) : list (result value) * t :=
  match ps with
  | [] => ([], self)
  | p :: ps' =>
      let '(r, self') := read p self in
      let '(rs, self'') := read_all ps' self' in
      (r :: rs, self'')
  end.

End Connector.

(** ** class IterableConnectorList *)

Module IterableList.

(** Modelled from the spec: the base class [IterableList] is in another
    file.  Section 3 describes it: it holds a target URL, an optional
    filter mapping and an internal fetch cursor (bookmark). *)
Record t : Type := mk {
  _apiClient : ApiClient;
  _castToClass : ApiClient -> dict -> result Connector.t;
  _url : string;
  _sort : option string;
  _filters : option dict;
  _passApiClient : bool;
  _bookmark : option string
}.

(** Modelled from the spec: sections 3 and 4.2 have pages fetched with
    GET as the sequence is consumed, starting without a bookmark;
    building the list stores the arguments and sends nothing. *)
Definition __init__ (apiClient : ApiClient)
    (castToClass : ApiClient -> dict -> result Connector.t)
    (url : string) (sort : option string) (filters : option dict)
    (passApiClient : bool) : Net t :=
  mret (mk apiClient castToClass url sort filters passApiClient None).

End IterableList.

Module IterableConnectorList.

Abbreviation t := IterableList.t.

(** This API does not support sorting. *)
Definition __init__ (apiClient : ApiClient) (url : string)
    (filters : option dict) : Net t :=
  IterableList.__init__ apiClient Connector.__init__ url None filters true.

End IterableConnectorList.

(** ** class Connectors *)

Module Connectors.

Definition allHistorianConnectorsUrl : string := "api/v0002/historianconnectors".
Definition oneHistorianConnectorUrl : string := "api/v0002/historianconnectors/%s".

(** Modelled from the spec: the base class [RestApiDict] is in another
    file; section 3 has the collection hold the transport handle and
    nothing else that changes. *)
Record t : Type := mk {
  _apiClient : ApiClient
}.

Definition __init__ (apiClient : ApiClient) : t := mk apiClient.

(** [Connector(apiClient=self._apiClient, **r.json())]: the method call
    binds [self], the keyword binds [apiClient]. *)
Definition new_Connector (apiClient : ApiClient) (body : value)
  : result Connector.t :=
  kwargs ← unpack ["self"; "apiClient"] body;
  Connector.__init__ apiClient kwargs.

Definition find (self : t) (nameFilter typeFilter enabledFilter serviceId : value)
  : Net IterableConnectorList.t :=
  let queryParms : dict := ∅ in
  let queryParms :=
    if truthy nameFilter then <["name" := nameFilter]> queryParms
    else queryParms in
  let queryParms :=
    if truthy typeFilter then <["type" := typeFilter]> queryParms
    else queryParms in
  let queryParms :=
    if truthy enabledFilter then <["enabled" := enabledFilter]> queryParms
    else queryParms in
  let queryParms :=
    if truthy serviceId then <["serviceId" := serviceId]> queryParms
    else queryParms in
  IterableConnectorList.__init__ (_apiClient self) allHistorianConnectorsUrl
    (Some queryParms).

Definition create (self : t)
    (name type serviceId timezone description enabled configuration : value)
  : Net Connector.t :=
  let connector : dict :=
    <["enabled" := enabled]> (
    <["timezone" := timezone]> (
    <["serviceId" := serviceId]> (
    <["description" := description]> (
    <["type" := type]> (
    <["name" := name]> ∅))))) in
  let url := "api/v0002/historianconnectors" in
  r ← post (_apiClient self) url connector;
  if status_code r =? 201 then
    lift (new_Connector (_apiClient self) (json r))
  else
    raise (ApiException r).

Definition update (self : t) (connectorId : string)
    (serviceId name type description timezone enabled configuration : value)
  : Net Connector.t :=
  let url := format_s "api/v0002/historianconnectors/%s" connectorId in
  let connectorBody : dict := ∅ in
  let connectorBody := <["id" := VStr connectorId]> connectorBody in
  let connectorBody := <["name" := name]> connectorBody in
  let connectorBody := <["type" := type]> connectorBody in
  let connectorBody := <["serviceId" := serviceId]> connectorBody in
  let connectorBody := <["description" := description]> connectorBody in
  let connectorBody := <["timezone" := timezone]> connectorBody in
  let connectorBody := <["enabled" := enabled]> connectorBody in
  let connectorBody :=
    if ne_None configuration
    then <["configuration" := configuration]> connectorBody
    else connectorBody in
  r ← put (_apiClient self) url connectorBody;
  if status_code r =? 200 then
    lift (new_Connector (_apiClient self) (json r))
  else
    raise (ApiException r).

End Connectors.

(** ** Small runs *)

Definition cloudant : value := VStr "cloudant".

(** A server that answers every request with the same response. *)
Definition always (r : Response) : ApiClient := mkApiClient (fun _ _ => r).

Definition c1_body : dict :=
  <["id" := VStr "c1"]> (<["type" := cloudant]> (<["name" := VStr "n"]> ∅)).

Definition sample_item (d : dict) : Connector.t :=
  let apiClient := always (mkResponse 200 VNone) in
  Connector.mk apiClient
    (Destinations.__init__ apiClient (VStr "c1") cloudant)
    (ForwardingRules.__init__ apiClient (VStr "c1")) d.

(** What the spec asks of a required-field accessor reading [key]. *)
Definition required_field (accessor : Connector.Obj value) (key : string)
    (self : Connector.t) : Prop :=
  (∀ v, Connector.mapping self !! key = Some v → (accessor self).1 = Ok v)
  ∧ (Connector.mapping self !! key = None →
     (accessor self).1 = Raise (KeyError key)).

(** The entry of the filter mapping [q] for an argument [arg] that is
    tested with [if arg:] and stored under [key]. *)
Definition filter_entry (q : dict) (key : string) (arg : value) : Prop :=
  (truthy arg = true → q !! key = Some arg)
  ∧ (truthy arg = false → q !! key = None).

(** How [create] and [update] answer a response [r] when [expected] is
    the status code of success: any other status raises [ApiException]
    with [r]; the expected status hands the decoded body to the
    constructor, which returns the item when the body is an object with
    [id] and [type] (and no key [self] or [apiClient], which the call
    already binds) and raises [KeyError] when [id] is missing; an item is
    returned, and [ApiException] raised, in no other case. *)
Definition answers (apiClient : ApiClient) (expected : Z) (r : Response)
    (res : result Connector.t) : Prop :=
  (status_code r ≠ expected → res = Raise (ApiException r))
  ∧ (status_code r = expected → ∀ d : dict, json r = VDict d →
     d !! "self" = None → d !! "apiClient" = None →
     is_Some (d !! "id") → is_Some (d !! "type") →
     ∃ c, res = Ok c ∧ Connector.mapping c = d
          ∧ Connector._apiClient c = apiClient)
  ∧ (status_code r = expected → ∀ d : dict, json r = VDict d →
     d !! "self" = None → d !! "apiClient" = None → d !! "id" = None →
     res = Raise (KeyError "id"))
  ∧ (∀ c, res = Ok c →
     status_code r = expected ∧ json r = VDict (Connector.mapping c))
  ∧ (∀ r', res = Raise (ApiException r') →
     status_code r ≠ expected ∧ r' = r).

(** ** Callers of the collection *)

(** A call on a collection, with its arguments. *)
Inductive call : Type :=
  | CallFind (nameFilter typeFilter enabledFilter serviceId : value)
  | CallCreate
      (name type serviceId timezone description enabled configuration : value)
  | CallUpdate (connectorId : string)
      (serviceId name type description timezone enabled configuration : value).

(** A caller that makes the call and goes on whatever it returns or
    raises: what stays is the requests sent. *)
Definition run_call (self : Connectors.t) (c : call) (log : list Request)
  : list Request :=
  match c with
  | CallFind nameFilter typeFilter enabledFilter serviceId =>
      (Connectors.find self nameFilter typeFilter enabledFilter serviceId log).2
  | CallCreate name type serviceId timezone description enabled configuration =>
      (Connectors.create self name type serviceId timezone description enabled
         configuration log).2
  | CallUpdate connectorId serviceId name type description timezone enabled
      configuration =>
      (Connectors.update self connectorId serviceId name type description
         timezone enabled configuration log).2
  end.

Fixpoint run_calls (self : Connectors.t) (cs : list call) (log : list Request)
  : list Request :=
  match cs with
  | [] => log
  | c :: cs' => run_calls self cs' (run_call self c log)
  end.

(** The verb and URL of the request a call sends, if it sends one. *)
Definition request_line (c : call) : option (verb * string) :=
  match c with
  | CallFind _ _ _ _ => None
  | CallCreate _ _ _ _ _ _ _ => Some (POST, "api/v0002/historianconnectors")
  | CallUpdate connectorId _ _ _ _ _ _ _ =>
      Some (PUT, "api/v0002/historianconnectors/" +:+ connectorId)
  end.

(** A decoded body from which [Connector(apiClient=..., **body)] builds
    an item: an object with [id] and [type] and no key that the call
    already binds. *)
Definition body_accepted (v : value) : Prop :=
  ∃ d : dict, v = VDict d
    ∧ d !! "self" = None ∧ d !! "apiClient" = None
    ∧ is_Some (d !! "id") ∧ is_Some (d !! "type").

(** When [Connector(apiClient=..., **body)] raises [e] on the decoded
    body [v]. *)
Definition body_raises (v : value) (e : exn) : Prop :=
  match e with
  | TypeError =>
      ∀ d : dict, v = VDict d →
        is_Some (d !! "self") ∨ is_Some (d !! "apiClient")
  | KeyError key =>
      ∃ d : dict, v = VDict d
        ∧ d !! "self" = None ∧ d !! "apiClient" = None
        ∧ ((key = "id" ∧ d !! "id" = None)
           ∨ (key = "type" ∧ is_Some (d !! "id") ∧ d !! "type" = None))
  | ApiException _ => False
  end.

(** The item that the constructor builds from [d] when [d] holds [id]
    and [type]. *)
Definition built_item (apiClient : ApiClient) (id type : value) (d : dict)
  : Connector.t :=
  Connector.mk apiClient (Destinations.__init__ apiClient id type)
    (ForwardingRules.__init__ apiClient id) d.

Example format_s_one :
  format_s Connectors.oneHistorianConnectorUrl "c1" = "api/v0002/historianconnectors/c1".
Proof. reflexivity. Qed.

(** * Properties *)

(** ** Helper lemmas *)

Lemma string_app_empty_r (s : string) : s +:+ "" = s.
Proof. induction s as [|c s IH]; [done | by rewrite <- IH at 2]. Qed.

Lemma format_s_single_item (connectorId : string) :
  format_s "api/v0002/historianconnectors/%s" connectorId
  = "api/v0002/historianconnectors/" +:+ connectorId.
Proof.
  transitivity ("api/v0002/historianconnectors/" +:+ (connectorId +:+ ""));
    [reflexivity | by rewrite string_app_empty_r].
Qed.

Lemma getitem_Some (d : dict) (key : string) (v : value) :
  d !! key = Some v → getitem d key = Ok v.
Proof. intros H. unfold getitem. by rewrite H. Qed.

Lemma getitem_None (d : dict) (key : string) :
  d !! key = None → getitem d key = Raise (KeyError key).
Proof. intros H. unfold getitem. by rewrite H. Qed.

Lemma contains_true (d : dict) (key : string) :
  contains d key = true ↔ is_Some (d !! key).
Proof. unfold contains. by rewrite bool_decide_eq_true. Qed.

Lemma contains_false (d : dict) (key : string) :
  contains d key = false ↔ d !! key = None.
Proof.
  unfold contains. rewrite bool_decide_eq_false. symmetry. apply eq_None_not_Some.
Qed.

Lemma ne_None_true (v : value) : ne_None v = true ↔ v ≠ VNone.
Proof. destruct v; cbn; split; congruence. Qed.

(** Reading a property leaves the object as it is. *)
Lemma read_state (p : Connector.property) (self : Connector.t) :
  (Connector.read p self).2 = self.
Proof.
  destruct p; try done.
  cbn. unfold Connector.configuration, mbind, SE_bind. cbn.
  by destruct (contains _ _).
Qed.

(** The constructor, case by case. *)
Lemma init_Ok (apiClient : ApiClient) (kwargs : dict) (id type : value) :
  kwargs !! "id" = Some id → kwargs !! "type" = Some type →
  Connector.__init__ apiClient kwargs
  = Ok (Connector.mk apiClient
          (Destinations.__init__ apiClient id type)
          (ForwardingRules.__init__ apiClient id) kwargs).
Proof.
  intros Hid Hty. unfold Connector.__init__.
  rewrite (getitem_Some _ _ _ Hid), (getitem_Some _ _ _ Hty). done.
Qed.

Lemma init_no_id (apiClient : ApiClient) (kwargs : dict) :
  kwargs !! "id" = None →
  Connector.__init__ apiClient kwargs = Raise (KeyError "id").
Proof.
  intros Hid. unfold Connector.__init__. by rewrite (getitem_None _ _ Hid).
Qed.

Lemma init_no_type (apiClient : ApiClient) (kwargs : dict) :
  is_Some (kwargs !! "id") → kwargs !! "type" = None →
  Connector.__init__ apiClient kwargs = Raise (KeyError "type").
Proof.
  intros [id Hid] Hty. unfold Connector.__init__.
  by rewrite (getitem_Some _ _ _ Hid), (getitem_None _ _ Hty).
Qed.

Lemma init_Ok_inv (apiClient : ApiClient) (kwargs : dict) (c : Connector.t) :
  Connector.__init__ apiClient kwargs = Ok c →
  is_Some (kwargs !! "id") ∧ is_Some (kwargs !! "type")
  ∧ Connector.mapping c = kwargs ∧ Connector._apiClient c = apiClient.
Proof.
  destruct (kwargs !! "id") as [id|] eqn:Hid;
    [|by rewrite init_no_id].
  destruct (kwargs !! "type") as [type|] eqn:Hty;
    [|by rewrite init_no_type].
  rewrite (init_Ok _ _ _ _ Hid Hty). intros [= <-]. eauto.
Qed.

(** ** The Connector item *)

(** C6. For every Connector, the [configuration] property returns the
    value stored under the key [configuration] of the backing mapping when
    the key is present, returns [None] when it is absent, and raises in
    neither case. *)
Theorem configuration_optional (self : Connector.t) :
  (∀ v, Connector.mapping self !! "configuration" = Some v →
        (Connector.configuration self).1 = Ok v)
  ∧ (Connector.mapping self !! "configuration" = None →
        (Connector.configuration self).1 = Ok VNone)
  ∧ (∀ e, (Connector.configuration self).1 ≠ Raise e).
Proof.
  unfold Connector.configuration, mbind, SE_bind, Connector.self_contains,
    Connector.self_getitem.
  destruct (contains (Connector.mapping self) "configuration") eqn:Hc; cbn.
  - apply contains_true in Hc as [w Hw]. rewrite (getitem_Some _ _ _ Hw).
    repeat split; congruence.
  - apply contains_false in Hc. repeat split; congruence.
Qed.

Lemma configuration_optional_witness :
  (Connector.configuration
     (sample_item (<["configuration" := VDict {["x" := VInt 1]}]> c1_body))).1
  = Ok (VDict {["x" := VInt 1]})
  ∧ (Connector.configuration (sample_item c1_body)).1 = Ok VNone.
Proof.
  split.
  - apply (configuration_optional
             (sample_item (<["configuration" := VDict {["x" := VInt 1]}]> c1_body))).
    reflexivity.
  - apply (configuration_optional (sample_item c1_body)). reflexivity.
Defined.

(** C7. For every Connector and each of the properties [serviceId],
    [connectorType], [adminDisabled], [enabled] and [timezone]: when the
    key it reads ([serviceId], [type], [adminDisabled], [enabled],
    [timezone]) is absent from the backing mapping the read raises
    [KeyError] for that key, and when the key is present the read returns
    the value stored under it. *)
Theorem required_accessors (self : Connector.t) :
  required_field Connector.serviceId "serviceId" self
  ∧ required_field Connector.connectorType "type" self
  ∧ required_field Connector.adminDisabled "adminDisabled" self
  ∧ required_field Connector.enabled "enabled" self
  ∧ required_field Connector.timezone "timezone" self.
Proof.
  repeat split; intros; cbn; auto using getitem_Some, getitem_None.
Qed.

Lemma required_accessors_witness :
  (Connector.serviceId (sample_item c1_body)).1 = Raise (KeyError "serviceId")
  ∧ (Connector.connectorType (sample_item c1_body)).1 = Ok cloudant
  ∧ (Connector.connectorType (sample_item ∅)).1 = Raise (KeyError "type")
  ∧ (Connector.timezone (sample_item (<["timezone" := VStr "UTC"]> c1_body))).1
    = Ok (VStr "UTC").
Proof.
  pose proof (required_accessors (sample_item c1_body)) as (Hs & Ht & _).
  pose proof (required_accessors (sample_item ∅)) as (_ & Ht0 & _).
  pose proof (required_accessors
                (sample_item (<["timezone" := VStr "UTC"]> c1_body)))
    as (_ & _ & _ & _ & Hz).
  split; [apply Hs; reflexivity|].
  split; [apply Ht; reflexivity|].
  split; [apply Ht0; reflexivity|].
  apply Hz; reflexivity.
Defined.

(** C9. Every property of a Connector is a projection of the backing
    mapping: reading any properties, in any order and any number of times,
    leaves the object (and so its mapping) as it was, and each read
    returns what a single read of that property on the original object
    returns. *)
Theorem accessors_pure (ps : list Connector.property) (self : Connector.t) :
  Connector.read_all ps self = ((λ p, (Connector.read p self).1) <$> ps, self).
Proof.
  induction ps as [|p ps IH]; [done|].
  cbn [Connector.read_all fmap list_fmap].
  pose proof (read_state p self) as Hst.
  destruct (Connector.read p self) as [r self'] eqn:Hr.
  cbn in Hst. subst self'. by rewrite IH.
Qed.

(** C10. [Connector(apiClient, **kwargs)] succeeds only when [kwargs] has
    both keys [id] and [type]: without [id] it raises [KeyError] for [id],
    with [id] but without [type] it raises [KeyError] for [type], and a
    Connector that was built holds both keys in its mapping, which is
    [kwargs]. *)
Theorem init_requires_id_and_type (apiClient : ApiClient) (kwargs : dict) :
  (kwargs !! "id" = None →
     Connector.__init__ apiClient kwargs = Raise (KeyError "id"))
  ∧ (is_Some (kwargs !! "id") → kwargs !! "type" = None →
     Connector.__init__ apiClient kwargs = Raise (KeyError "type"))
  ∧ (∀ c, Connector.__init__ apiClient kwargs = Ok c →
     Connector.mapping c = kwargs
     ∧ is_Some (Connector.mapping c !! "id")
     ∧ is_Some (Connector.mapping c !! "type")).
Proof.
  split; [apply init_no_id|]. split; [apply init_no_type|].
  intros c Hc. apply init_Ok_inv in Hc as (Hid & Hty & -> & _). done.
Qed.

Lemma init_requires_id_and_type_witness :
  let apiClient := always (mkResponse 200 VNone) in
  Connector.__init__ apiClient (<["type" := cloudant]> ∅) = Raise (KeyError "id")
  ∧ Connector.__init__ apiClient (<["id" := VStr "c1"]> ∅) = Raise (KeyError "type")
  ∧ is_Some (Connector.mapping (sample_item c1_body) !! "id").
Proof.
  intros apiClient.
  split; [|split].
  - apply (init_requires_id_and_type apiClient (<["type" := cloudant]> ∅)).
    reflexivity.
  - apply (init_requires_id_and_type apiClient (<["id" := VStr "c1"]> ∅)).
    + by eexists.
    + reflexivity.
  - destruct (init_requires_id_and_type apiClient c1_body) as (_ & _ & Hok).
    apply (Hok (sample_item c1_body)). reflexivity.
Defined.

(** ** The Connectors collection *)

Lemma find_run (self : Connectors.t)
    (nameFilter typeFilter enabledFilter serviceId : value) (log : list Request) :
  ∃ q : dict,
    Connectors.find self nameFilter typeFilter enabledFilter serviceId log
    = (Ok (IterableList.mk (Connectors._apiClient self) Connector.__init__
             "api/v0002/historianconnectors" None (Some q) true None), log)
    ∧ q !! "name" = (if truthy nameFilter then Some nameFilter else None)
    ∧ q !! "type" = (if truthy typeFilter then Some typeFilter else None)
    ∧ q !! "enabled" = (if truthy enabledFilter then Some enabledFilter else None)
    ∧ q !! "serviceId" = (if truthy serviceId then Some serviceId else None)
    ∧ dom q ⊆ {["name"; "type"; "enabled"; "serviceId"]}.
Proof.
  unfold Connectors.find. eexists. split; [reflexivity|].
  destruct (truthy nameFilter), (truthy typeFilter), (truthy enabledFilter),
    (truthy serviceId);
    (repeat split; [reflexivity ..|]);
    rewrite ?dom_insert_L, ?dom_empty_L; intros k; set_unfold; tauto.
Qed.

(** [find(enabledFilter=False)] and [find(nameFilter="")] supply an
    argument that is not [None], and the filter mapping stays empty: the
    argument does not appear under its key. *)
Lemma find_falsy_filter_dropped :
  let self := Connectors.__init__ (always (mkResponse 200 VNone)) in
  (∃ lst, Connectors.find self VNone VNone (VBool false) VNone [] = (Ok lst, [])
     ∧ ne_None (VBool false) = true
     ∧ IterableList._filters lst = Some ∅
     ∧ IterableList._filters lst ≠ Some {["enabled" := VBool false]})
  ∧ (∃ lst, Connectors.find self (VStr "") VNone VNone VNone [] = (Ok lst, [])
     ∧ ne_None (VStr "") = true
     ∧ IterableList._filters lst = Some ∅
     ∧ IterableList._filters lst ≠ Some {["name" := VStr ""]}).
Proof.
  split; eexists; (split; [reflexivity|]); cbn;
    (split; [reflexivity|]); (split; [reflexivity|]);
    intros [=].
Qed.

(** C1 (amended). For every call to [find] whose [enabledFilter] is not
    [False], the filter mapping handed to the returned list is built from
    exactly the arguments that are truthy: each of [nameFilter],
    [typeFilter], [enabledFilter], [serviceId] that is supplied and truthy
    (a non-empty string, [True]) appears under its key ([name], [type],
    [enabled], [serviceId]) with the supplied value, an argument that is
    [None] or an empty string adds no key, and no other key appears. *)
Theorem find_filters_truthy (self : Connectors.t)
    (nameFilter typeFilter enabledFilter serviceId : value) (log : list Request) :
  enabledFilter ≠ VBool false →
  ∃ (lst : IterableConnectorList.t) (q : dict),
    (Connectors.find self nameFilter typeFilter enabledFilter serviceId log).1
    = Ok lst
    ∧ IterableList._filters lst = Some q
    ∧ filter_entry q "name" nameFilter
    ∧ filter_entry q "type" typeFilter
    ∧ filter_entry q "enabled" enabledFilter
    ∧ filter_entry q "serviceId" serviceId
    ∧ dom q ⊆ {["name"; "type"; "enabled"; "serviceId"]}.
Proof.
  intros _.
  destruct (find_run self nameFilter typeFilter enabledFilter serviceId log)
    as (q & Hrun & Hn & Ht & He & Hs & Hdom).
  eexists _, q. rewrite Hrun. cbn.
  repeat split; try done; intros Hv;
    first [by rewrite Hv in Hn | by rewrite Hv in Ht
          | by rewrite Hv in He | by rewrite Hv in Hs].
Qed.

Lemma find_filters_truthy_witness :
  ∃ (lst : IterableConnectorList.t) (q : dict),
    (Connectors.find (Connectors.__init__ (always (mkResponse 200 VNone)))
       (VStr "x") VNone (VBool true) (VStr "") []).1 = Ok lst
    ∧ IterableList._filters lst = Some q
    ∧ filter_entry q "name" (VStr "x")
    ∧ filter_entry q "type" VNone
    ∧ filter_entry q "enabled" (VBool true)
    ∧ filter_entry q "serviceId" (VStr "")
    ∧ dom q ⊆ {["name"; "type"; "enabled"; "serviceId"]}.
Proof.
  apply (find_filters_truthy (Connectors.__init__ (always (mkResponse 200 VNone)))
           (VStr "x") VNone (VBool true) (VStr "") []).
  discriminate.
Defined.

(** The two calls the spec spells out. *)
Example find_no_arguments (self : Connectors.t) (log : list Request) :
  IterableList._filters <$> (Connectors.find self VNone VNone VNone VNone log).1
  = Ok (Some ∅).
Proof. reflexivity. Qed.

Example find_name_and_enabled (self : Connectors.t) (log : list Request) :
  IterableList._filters <$>
    (Connectors.find self (VStr "x") VNone (VBool true) VNone log).1
  = Ok (Some (<["name" := VStr "x"]> {["enabled" := VBool true]})).
Proof.
  reflexivity.
Qed.

(** C8. [find] sends nothing: for every combination of arguments the
    requests issued so far are unchanged, and the call returns an
    [IterableConnectorList] over the collection URL
    [api/v0002/historianconnectors] holding the transport handle of the
    collection, the filter mapping that was built, and a cursor that has
    not fetched any page. *)
Theorem find_sends_nothing (self : Connectors.t)
    (nameFilter typeFilter enabledFilter serviceId : value) (log : list Request) :
  ∃ (lst : IterableConnectorList.t) (q : dict),
    Connectors.find self nameFilter typeFilter enabledFilter serviceId log
    = (Ok lst, log)
    ∧ IterableList._url lst = "api/v0002/historianconnectors"
    ∧ IterableList._url lst = Connectors.allHistorianConnectorsUrl
    ∧ IterableList._apiClient lst = Connectors._apiClient self
    ∧ IterableList._bookmark lst = None
    ∧ IterableList._sort lst = None
    ∧ IterableList._filters lst = Some q
    ∧ q !! "name" = (if truthy nameFilter then Some nameFilter else None)
    ∧ q !! "type" = (if truthy typeFilter then Some typeFilter else None)
    ∧ q !! "enabled" = (if truthy enabledFilter then Some enabledFilter else None)
    ∧ q !! "serviceId" = (if truthy serviceId then Some serviceId else None)
    ∧ dom q ⊆ {["name"; "type"; "enabled"; "serviceId"]}.
Proof.
  destruct (find_run self nameFilter typeFilter enabledFilter serviceId log)
    as (q & Hrun & Hq).
  eexists _, q. split; [exact Hrun|]. cbn. by repeat (split; [done|]).
Qed.

(** *** Building the item from a response body *)

Lemma unpack_Ok (bound : list string) (d : dict) :
  Forall (λ k, d !! k = None) bound → unpack bound (VDict d) = Ok d.
Proof.
  intros Hb. unfold unpack.
  replace (forallb _ bound) with true; [done|].
  symmetry. apply forallb_forall. intros k Hk%list_elem_of_In.
  rewrite Forall_forall in Hb. apply negb_true_iff, contains_false. auto.
Qed.

Lemma unpack_Ok_inv (bound : list string) (v : value) (d : dict) :
  unpack bound v = Ok d → v = VDict d ∧ Forall (λ k, d !! k = None) bound.
Proof.
  destruct v as [| | | | |d']; try discriminate. cbn.
  destruct (forallb _ bound) eqn:Hb; [|discriminate].
  intros [= ->]. split; [done|].
  apply Forall_forall. intros k Hk%list_elem_of_In.
  rewrite forallb_forall in Hb. by apply contains_false, negb_true_iff, Hb.
Qed.

Lemma new_Connector_Ok (apiClient : ApiClient) (d : dict) :
  d !! "self" = None → d !! "apiClient" = None →
  is_Some (d !! "id") → is_Some (d !! "type") →
  ∃ c, Connectors.new_Connector apiClient (VDict d) = Ok c
       ∧ Connector.mapping c = d ∧ Connector._apiClient c = apiClient.
Proof.
  intros Hs Ha [id Hid] [ty Hty]. unfold Connectors.new_Connector.
  rewrite unpack_Ok by (by repeat constructor). cbn.
  rewrite (init_Ok _ _ _ _ Hid Hty). eauto.
Qed.

Lemma new_Connector_no_id (apiClient : ApiClient) (d : dict) :
  d !! "self" = None → d !! "apiClient" = None → d !! "id" = None →
  Connectors.new_Connector apiClient (VDict d) = Raise (KeyError "id").
Proof.
  intros Hs Ha Hid. unfold Connectors.new_Connector.
  rewrite unpack_Ok by (by repeat constructor). cbn. by apply init_no_id.
Qed.

Lemma new_Connector_Ok_inv (apiClient : ApiClient) (v : value) (c : Connector.t) :
  Connectors.new_Connector apiClient v = Ok c →
  v = VDict (Connector.mapping c) ∧ Connector._apiClient c = apiClient.
Proof.
  unfold Connectors.new_Connector.
  destruct (unpack _ v) as [d|e] eqn:Hu; [|discriminate]. cbn.
  apply unpack_Ok_inv in Hu as [-> _].
  intros (_ & _ & <- & <-)%init_Ok_inv. done.
Qed.

Lemma new_Connector_raises (apiClient : ApiClient) (v : value) (e : exn) :
  Connectors.new_Connector apiClient v = Raise e →
  e = TypeError ∨ e = KeyError "id" ∨ e = KeyError "type".
Proof.
  unfold Connectors.new_Connector.
  destruct (unpack _ v) as [d|e'] eqn:Hu; cbn.
  - unfold Connector.__init__, getitem.
    destruct (d !! "id"); cbn; [|intros [= <-]; auto].
    destruct (d !! "type"); cbn; [discriminate|intros [= <-]; auto].
  - intros [= <-]. left. unfold unpack in Hu.
    destruct v; try by injection Hu. destruct (forallb _ _); congruence.
Qed.

Lemma answers_intro (apiClient : ApiClient) (expected : Z) (r : Response) :
  answers apiClient expected r
    (if status_code r =? expected
     then Connectors.new_Connector apiClient (json r)
     else Raise (ApiException r)).
Proof.
  unfold answers. destruct (Z.eqb_spec (status_code r) expected) as [Heq|Hne].
  - split; [done|]. split; [|split; [|split]].
    + intros _ d ->. apply new_Connector_Ok.
    + intros _ d ->. apply new_Connector_no_id.
    + intros c [-> _]%new_Connector_Ok_inv. done.
    + intros r' Hr. apply new_Connector_raises in Hr as [|[|]]; discriminate.
  - split; [done|]. split; [done|]. split; [done|]. split; [done|].
    by intros r' [= <-].
Qed.

Lemma create_run (self : Connectors.t)
    (name type serviceId timezone description enabled configuration : value)
    (log : list Request) :
  ∃ body : dict,
    let req := mkRequest POST "api/v0002/historianconnectors" body in
    let r := server (Connectors._apiClient self) log req in
    Connectors.create self name type serviceId timezone description enabled
      configuration log
    = (if status_code r =? 201
       then Connectors.new_Connector (Connectors._apiClient self) (json r)
       else Raise (ApiException r), log ++ [req])
    ∧ body !! "name" = Some name
    ∧ body !! "type" = Some type
    ∧ body !! "description" = Some description
    ∧ body !! "serviceId" = Some serviceId
    ∧ body !! "timezone" = Some timezone
    ∧ body !! "enabled" = Some enabled
    ∧ body !! "configuration" = None.
Proof.
  exists (<["enabled" := enabled]> (<["timezone" := timezone]> (
          <["serviceId" := serviceId]> (<["description" := description]> (
          <["type" := type]> (<["name" := name]> ∅)))))).
  cbn zeta. split.
  - unfold Connectors.create, mbind, SE_bind, post, request, lift, raise.
    cbn. by destruct (_ =? 201).
  - repeat split; reflexivity.
Qed.

Lemma update_run (self : Connectors.t) (connectorId : string)
    (serviceId name type description timezone enabled configuration : value)
    (log : list Request) :
  ∃ body : dict,
    let req := mkRequest PUT ("api/v0002/historianconnectors/" +:+ connectorId)
                 body in
    let r := server (Connectors._apiClient self) log req in
    Connectors.update self connectorId serviceId name type description timezone
      enabled configuration log
    = (if status_code r =? 200
       then Connectors.new_Connector (Connectors._apiClient self) (json r)
       else Raise (ApiException r), log ++ [req])
    ∧ body !! "id" = Some (VStr connectorId)
    ∧ body !! "name" = Some name
    ∧ body !! "type" = Some type
    ∧ body !! "serviceId" = Some serviceId
    ∧ body !! "description" = Some description
    ∧ body !! "timezone" = Some timezone
    ∧ body !! "enabled" = Some enabled
    ∧ body !! "configuration"
      = (if ne_None configuration then Some configuration else None)
    ∧ dom body ⊆ {["id"; "name"; "type"; "serviceId"; "description";
                   "timezone"; "enabled"; "configuration"]}.
Proof.
  set (base := <["enabled" := enabled]> (<["timezone" := timezone]> (
          <["description" := description]> (<["serviceId" := serviceId]> (
          <["type" := type]> (<["name" := name]> (
          <["id" := VStr connectorId]> (∅ : dict)))))))).
  exists (if ne_None configuration
          then <["configuration" := configuration]> base else base).
  subst base. cbn zeta. split.
  - unfold Connectors.update, mbind, SE_bind, put, request, lift, raise.
    rewrite format_s_single_item. cbn. by destruct (_ =? 200).
  - destruct (ne_None configuration); (repeat split; [reflexivity ..|]);
      rewrite ?dom_insert_L, ?dom_empty_L; intros k; set_unfold; tauto.
Qed.

(** *** create *)

(** The body that [create] posts: the six required fields with the
    supplied values, whatever [configuration] is. *)
Lemma create_body (self : Connectors.t)
    (name type serviceId timezone description enabled configuration : value)
    (log : list Request) :
  ∃ body : dict,
    (Connectors.create self name type serviceId timezone description enabled
       configuration log).2
    = log ++ [mkRequest POST "api/v0002/historianconnectors" body]
    ∧ body !! "name" = Some name
    ∧ body !! "type" = Some type
    ∧ body !! "description" = Some description
    ∧ body !! "serviceId" = Some serviceId
    ∧ body !! "timezone" = Some timezone
    ∧ body !! "enabled" = Some enabled
    ∧ body !! "configuration" = None.
Proof.
  destruct (create_run self name type serviceId timezone description enabled
              configuration log) as (body & Hrun & Hbody).
  exists body. by rewrite Hrun.
Qed.

(** C2 (the code departs from the claim). [create] called with
    [configuration={"x": 1}] posts a body that holds the six required
    fields and no [configuration] key: the argument is dropped. *)
Theorem create_drops_configuration :
  let self := Connectors.__init__ (always (mkResponse 201 (VDict c1_body))) in
  let configuration := VDict {["x" := VInt 1]} in
  ∃ body : dict,
    (Connectors.create self (VStr "n") cloudant (VStr "s") (VStr "UTC")
       (VStr "d") (VBool true) configuration []).2
    = [mkRequest POST "api/v0002/historianconnectors" body]
    ∧ ne_None configuration = true
    ∧ body !! "configuration" = None
    ∧ dom body = {["name"; "type"; "description"; "serviceId"; "timezone";
                   "enabled"]}.
Proof.
  eexists. split; [reflexivity|]. split; [reflexivity|].
  split; [reflexivity|]. apply set_eq. intros k.
  rewrite !dom_insert_L, dom_empty_L. set_unfold. tauto.
Qed.

(** A response 201 whose body has no [id]: [create] raises [KeyError]
    and returns no item, although the status is the one of success. *)
Lemma create_201_without_id :
  let r := mkResponse 201 (VDict {["name" := VStr "n"]}) in
  let self := Connectors.__init__ (always r) in
  status_code r = 201
  ∧ (Connectors.create self (VStr "n") cloudant (VStr "s") (VStr "UTC")
       (VStr "d") (VBool true) VNone []).1
    = Raise (KeyError "id")
  ∧ ¬ ∃ c, (Connectors.create self (VStr "n") cloudant (VStr "s") (VStr "UTC")
              (VStr "d") (VBool true) VNone []).1 = Ok c.
Proof.
  cbn zeta. split; [reflexivity|]. split; [reflexivity|].
  intros [c Hc]. vm_compute in Hc. discriminate Hc.
Qed.

(** C3 (amended). [create] sends one POST to the collection URL and
    raises [ApiException] carrying the raw response exactly when the
    status code is not 201.  On 201 it hands the decoded body to the
    Connector constructor: a body that is an object with [id] and [type]
    (and no key [self] or [apiClient]) gives the Connector wrapping it, a
    body without [id] raises [KeyError]; an item is returned only on 201
    and wraps the decoded body. *)
Theorem create_outcome (self : Connectors.t)
    (name type serviceId timezone description enabled configuration : value)
    (log : list Request) :
  ∃ body : dict,
    let req := mkRequest POST "api/v0002/historianconnectors" body in
    let run := Connectors.create self name type serviceId timezone description
                 enabled configuration log in
    run.2 = log ++ [req]
    ∧ answers (Connectors._apiClient self) 201
        (server (Connectors._apiClient self) log req) run.1.
Proof.
  destruct (create_run self name type serviceId timezone description enabled
              configuration log) as (body & Hrun & _).
  exists body. cbn zeta in *. rewrite Hrun. split; [done|]. apply answers_intro.
Qed.

Lemma create_outcome_witness :
  (∃ c, (Connectors.create
           (Connectors.__init__ (always (mkResponse 201 (VDict c1_body))))
           (VStr "n") cloudant (VStr "s") (VStr "UTC") (VStr "d") (VBool true)
           VNone []).1 = Ok c
        ∧ Connector.mapping c !! "id" = Some (VStr "c1"))
  ∧ (Connectors.create
       (Connectors.__init__ (always (mkResponse 400 VNone)))
       (VStr "n") cloudant (VStr "s") (VStr "UTC") (VStr "d") (VBool true)
       VNone []).1 = Raise (ApiException (mkResponse 400 VNone)).
Proof.
  split.
  - destruct (create_outcome
                (Connectors.__init__ (always (mkResponse 201 (VDict c1_body))))
                (VStr "n") cloudant (VStr "s") (VStr "UTC") (VStr "d")
                (VBool true) VNone []) as (body & _ & _ & Hok & _).
    destruct (Hok eq_refl c1_body eq_refl eq_refl eq_refl
                (ex_intro _ (VStr "c1") eq_refl) (ex_intro _ cloudant eq_refl))
      as (c & Hc & Hm & _).
    exists c. split; [exact Hc|]. rewrite Hm. reflexivity.
  - destruct (create_outcome
                (Connectors.__init__ (always (mkResponse 400 VNone)))
                (VStr "n") cloudant (VStr "s") (VStr "UTC") (VStr "d")
                (VBool true) VNone []) as (body & _ & Hne & _).
    apply Hne. discriminate.
Defined.

(** The run of the spec: status 201 with a body whose [id] is [c1]. *)
Example create_201_c1 :
  Connector.mapping <$>
    (Connectors.create
       (Connectors.__init__ (always (mkResponse 201 (VDict c1_body))))
       (VStr "n") cloudant (VStr "s") (VStr "UTC") (VStr "d") (VBool true)
       VNone []).1
  = Ok c1_body.
Proof. reflexivity. Qed.

(** *** update *)

(** A response 200 whose body has no [id]: [update] raises [KeyError]
    and returns no item, although the status is the one of success. *)
Lemma update_200_without_id :
  let r := mkResponse 200 (VDict {["name" := VStr "n"]}) in
  let self := Connectors.__init__ (always r) in
  status_code r = 200
  ∧ (Connectors.update self "c1" (VStr "s") (VStr "n") cloudant (VStr "d")
       (VStr "UTC") (VBool true) VNone []).1
    = Raise (KeyError "id")
  ∧ ¬ ∃ c, (Connectors.update self "c1" (VStr "s") (VStr "n") cloudant
              (VStr "d") (VStr "UTC") (VBool true) VNone []).1 = Ok c.
Proof.
  cbn zeta. split; [reflexivity|]. split; [reflexivity|].
  intros [c Hc]. vm_compute in Hc. discriminate Hc.
Qed.

(** C4 (amended). [update] sends one PUT to the single-item URL
    [api/v0002/historianconnectors/{connectorId}] and raises
    [ApiException] built from the raw response exactly when the status
    code is not 200, whatever that code is.  On 200 it hands the decoded
    body to the Connector constructor: a body that is an object with [id]
    and [type] (and no key [self] or [apiClient]) gives the Connector
    wrapping it, a body without [id] raises [KeyError]; an item is
    returned only on 200 and wraps the decoded body. *)
Theorem update_outcome (self : Connectors.t) (connectorId : string)
    (serviceId name type description timezone enabled configuration : value)
    (log : list Request) :
  ∃ body : dict,
    let req := mkRequest PUT ("api/v0002/historianconnectors/" +:+ connectorId)
                 body in
    let run := Connectors.update self connectorId serviceId name type
                 description timezone enabled configuration log in
    run.2 = log ++ [req]
    ∧ answers (Connectors._apiClient self) 200
        (server (Connectors._apiClient self) log req) run.1.
Proof.
  destruct (update_run self connectorId serviceId name type description
              timezone enabled configuration log) as (body & Hrun & _).
  exists body. cbn zeta in *. rewrite Hrun. split; [done|]. apply answers_intro.
Qed.

Lemma update_outcome_witness :
  (∃ c, (Connectors.update
           (Connectors.__init__ (always (mkResponse 200 (VDict c1_body))))
           "c1" (VStr "s") (VStr "n") cloudant (VStr "d") (VStr "UTC")
           (VBool true) VNone []).1 = Ok c
        ∧ Connector.mapping c = c1_body)
  ∧ (Connectors.update
       (Connectors.__init__ (always (mkResponse 404 VNone)))
       "c1" (VStr "s") (VStr "n") cloudant (VStr "d") (VStr "UTC")
       (VBool true) VNone []).1 = Raise (ApiException (mkResponse 404 VNone))
  ∧ (Connectors.update
       (Connectors.__init__ (always (mkResponse 500 VNone)))
       "c1" (VStr "s") (VStr "n") cloudant (VStr "d") (VStr "UTC")
       (VBool true) VNone []).1 = Raise (ApiException (mkResponse 500 VNone)).
Proof.
  split; [|split].
  - destruct (update_outcome
                (Connectors.__init__ (always (mkResponse 200 (VDict c1_body))))
                "c1" (VStr "s") (VStr "n") cloudant (VStr "d") (VStr "UTC")
                (VBool true) VNone []) as (body & _ & _ & Hok & _).
    destruct (Hok eq_refl c1_body eq_refl eq_refl eq_refl
                (ex_intro _ (VStr "c1") eq_refl) (ex_intro _ cloudant eq_refl))
      as (c & Hc & Hm & _).
    exists c. split; [exact Hc | exact Hm].
  - destruct (update_outcome
                (Connectors.__init__ (always (mkResponse 404 VNone)))
                "c1" (VStr "s") (VStr "n") cloudant (VStr "d") (VStr "UTC")
                (VBool true) VNone []) as (body & _ & Hne & _).
    apply Hne. discriminate.
  - destruct (update_outcome
                (Connectors.__init__ (always (mkResponse 500 VNone)))
                "c1" (VStr "s") (VStr "n") cloudant (VStr "d") (VStr "UTC")
                (VBool true) VNone []) as (body & _ & Hne & _).
    apply Hne. discriminate.
Defined.

(** C5. For every call to [update], the body of the PUT request holds
    [id] (the connector id), [name], [type], [serviceId], [description],
    [timezone] and [enabled] with the supplied values, and holds a
    [configuration] key if and only if the [configuration] argument is not
    [None], in which case its value is the argument; no other key
    appears. *)
Theorem update_body (self : Connectors.t) (connectorId : string)
    (serviceId name type description timezone enabled configuration : value)
    (log : list Request) :
  ∃ body : dict,
    (Connectors.update self connectorId serviceId name type description
       timezone enabled configuration log).2
    = log ++ [mkRequest PUT ("api/v0002/historianconnectors/" +:+ connectorId)
                body]
    ∧ body !! "id" = Some (VStr connectorId)
    ∧ body !! "name" = Some name
    ∧ body !! "type" = Some type
    ∧ body !! "serviceId" = Some serviceId
    ∧ body !! "description" = Some description
    ∧ body !! "timezone" = Some timezone
    ∧ body !! "enabled" = Some enabled
    ∧ ("configuration" ∈ dom body ↔ configuration ≠ VNone)
    ∧ (configuration ≠ VNone → body !! "configuration" = Some configuration)
    ∧ dom body ⊆ {["id"; "name"; "type"; "serviceId"; "description";
                   "timezone"; "enabled"; "configuration"]}.
Proof.
  destruct (update_run self connectorId serviceId name type description
              timezone enabled configuration log)
    as (body & Hrun & Hid & Hn & Ht & Hs & Hd & Hz & He & Hc & Hdom).
  exists body. cbn zeta in Hrun. rewrite Hrun. cbn [snd].
  repeat (split; [done|]).
  rewrite elem_of_dom, Hc, <- ne_None_true.
  destruct (ne_None configuration); repeat split; done.
Qed.

Lemma update_body_witness :
  ∃ body : dict,
    (Connectors.update
       (Connectors.__init__ (always (mkResponse 200 (VDict c1_body))))
       "c1" (VStr "s") (VStr "n") cloudant (VStr "d") (VStr "UTC")
       (VBool true) (VDict {["x" := VInt 1]}) []).2
    = [mkRequest PUT "api/v0002/historianconnectors/c1" body]
    ∧ body !! "configuration" = Some (VDict {["x" := VInt 1]}).
Proof.
  destruct (update_body
              (Connectors.__init__ (always (mkResponse 200 (VDict c1_body))))
              "c1" (VStr "s") (VStr "n") cloudant (VStr "d") (VStr "UTC")
              (VBool true) (VDict {["x" := VInt 1]}) [])
    as (body & Hlog & _ & _ & _ & _ & _ & _ & _ & _ & Hc & _).
  exists body. split; [exact Hlog|]. apply Hc. discriminate.
Defined.

(** The two runs of the spec. *)
Example update_configuration_omitted :
  (λ req, data req !! "configuration") <$>
    (Connectors.update
       (Connectors.__init__ (always (mkResponse 200 (VDict c1_body))))
       "c1" (VStr "s") (VStr "n") cloudant (VStr "d") (VStr "UTC")
       (VBool true) VNone []).2
  = [None].
Proof. reflexivity. Qed.

Example update_configuration_given :
  (λ req, data req !! "configuration") <$>
    (Connectors.update
       (Connectors.__init__ (always (mkResponse 200 (VDict c1_body))))
       "c1" (VStr "s") (VStr "n") cloudant (VStr "d") (VStr "UTC")
       (VBool true) (VDict {["x" := VInt 1]}) []).2
  = [Some (VDict {["x" := VInt 1]})].
Proof. reflexivity. Qed.

(** * Further properties of the code *)

(** ** Helper lemmas *)

Lemma unpack_reserved_iff (v : value) :
  unpack ["self"; "apiClient"] v = Raise TypeError
  ↔ ∀ d : dict, v = VDict d →
      is_Some (d !! "self") ∨ is_Some (d !! "apiClient").
Proof.
  destruct v as [| | | | |d]; cbn; try (split; [intros _ ? [=] | done]).
  destruct (contains d "self") eqn:Hs; cbn.
  - apply contains_true in Hs. split; [intros _ ? [= <-]; auto | done].
  - apply contains_false in Hs.
    destruct (contains d "apiClient") eqn:Ha; cbn.
    + apply contains_true in Ha. split; [intros _ ? [= <-]; auto | done].
    + apply contains_false in Ha. split; [done|].
      intros H. destruct (H d eq_refl) as [[? ?]|[? ?]]; congruence.
Qed.

Lemma new_Connector_accepted (apiClient : ApiClient) (v : value) :
  (∃ c, Connectors.new_Connector apiClient v = Ok c) ↔ body_accepted v.
Proof.
  split.
  - intros [c Hc]. unfold Connectors.new_Connector in Hc.
    destruct (unpack _ v) as [d|e] eqn:Hu; [|discriminate]. cbn in Hc.
    apply unpack_Ok_inv in Hu as [-> Hb].
    apply init_Ok_inv in Hc as (Hid & Hty & _).
    exists d. by inversion Hb as [|? ? ? Hb']; inversion Hb'.
  - intros (d & -> & Hs & Ha & Hid & Hty).
    destruct (new_Connector_Ok apiClient d Hs Ha Hid Hty) as (c & Hc & _).
    eauto.
Qed.

Lemma new_Connector_raises_iff (apiClient : ApiClient) (v : value) (e : exn) :
  Connectors.new_Connector apiClient v = Raise e ↔ body_raises v e.
Proof.
  unfold Connectors.new_Connector.
  destruct (unpack _ v) as [d|e'] eqn:Hu; cbn.
  - apply unpack_Ok_inv in Hu as [-> Hb].
    assert (d !! "self" = None ∧ d !! "apiClient" = None) as [Hs Ha]
      by (by inversion Hb as [|? ? ? Hb']; inversion Hb').
    destruct (d !! "id") as [id|] eqn:Hid.
    + destruct (d !! "type") as [ty|] eqn:Hty.
      * rewrite (init_Ok _ _ _ _ Hid Hty). split; [done|].
        destruct e as [key| |r]; cbn; [| |done].
        -- intros (d' & [= <-] & _ & _ & [[_ ?]|(_ & _ & ?)]); congruence.
        -- intros H. destruct (H d eq_refl) as [[? ?]|[? ?]]; congruence.
      * rewrite init_no_type by eauto. split.
        -- intros [= <-]. exists d. eauto 10.
        -- destruct e as [key| |r]; cbn; [| |done].
           ++ intros (d' & [= <-] & _ & _ & [[_ ?]|(-> & _ & _)]);
                congruence.
           ++ intros H. destruct (H d eq_refl) as [[? ?]|[? ?]]; congruence.
    + rewrite init_no_id by done. split.
      * intros [= <-]. exists d. eauto 10.
      * destruct e as [key| |r]; cbn; [| |done].
        -- intros (d' & [= <-] & _ & _ & [[-> _]|(_ & [? ?] & _)]);
             congruence.
        -- intros H. destruct (H d eq_refl) as [[? ?]|[? ?]]; congruence.
  - assert (e' = TypeError) as ->.
    { unfold unpack in Hu. destruct v; try by injection Hu.
      destruct (forallb _ _); congruence. }
    pose proof (proj1 (unpack_reserved_iff v) Hu) as Hr. split.
    + by intros [= <-].
    + destruct e as [key| |r]; cbn; [|done|done].
      intros (d & -> & Hs & Ha & _).
      destruct (Hr d eq_refl) as [[? ?]|[? ?]]; congruence.
Qed.

(** ** The built item *)

(** X1. On an item that [Connector(apiClient, **kwargs)] built, the
    [connectorType] property cannot raise: it returns the [type] the item
    was built with. *)
Theorem built_connectorType (apiClient : ApiClient) (kwargs : dict)
    (c : Connector.t) :
  Connector.__init__ apiClient kwargs = Ok c →
  ∃ type, kwargs !! "type" = Some type
          ∧ (Connector.connectorType c).1 = Ok type.
Proof.
  intros (_ & [type Hty] & Hm & _)%init_Ok_inv.
  exists type. split; [done|]. cbn. rewrite Hm. by apply getitem_Some.
Qed.

Lemma built_connectorType_witness :
  ∃ type, c1_body !! "type" = Some type
          ∧ (Connector.connectorType (sample_item c1_body)).1 = Ok type.
Proof.
  apply (built_connectorType (always (mkResponse 200 VNone)) c1_body).
  reflexivity.
Defined.

(** X2. An item that was built holds the transport handle it was given,
    and so do its two sub-resource handles: [destinations] is built from
    the [id] and the [type] of [kwargs], [rules] from the [id]. *)
Theorem built_handles (apiClient : ApiClient) (kwargs : dict) (c : Connector.t) :
  Connector.__init__ apiClient kwargs = Ok c →
  Connector._apiClient c = apiClient
  ∧ Destinations._apiClient (Connector.destinations c) = apiClient
  ∧ ForwardingRules._apiClient (Connector.rules c) = apiClient
  ∧ kwargs !! "id" = Some (Destinations.connectorId (Connector.destinations c))
  ∧ kwargs !! "type"
    = Some (Destinations.connectorType (Connector.destinations c))
  ∧ kwargs !! "id" = Some (ForwardingRules.connectorId (Connector.rules c)).
Proof.
  intros Hc. destruct (init_Ok_inv _ _ _ Hc) as ([id Hid] & [ty Hty] & _).
  rewrite (init_Ok _ _ _ _ Hid Hty) in Hc. injection Hc as <-. by cbn.
Qed.

Lemma built_handles_witness :
  c1_body !! "id"
  = Some (Destinations.connectorId (Connector.destinations (sample_item c1_body)))
  ∧ c1_body !! "type"
    = Some (Destinations.connectorType
              (Connector.destinations (sample_item c1_body))).
Proof.
  destruct (built_handles (always (mkResponse 200 VNone)) c1_body
              (sample_item c1_body) eq_refl)
    as (_ & _ & _ & Hid & Hty & _).
  exact (conj Hid Hty).
Defined.

(** X3. The [configuration] property returns [None] exactly when the key
    is absent or the value stored under it is [None]: a reader cannot
    tell the two apart. *)
Theorem configuration_None_iff (self : Connector.t) :
  (Connector.configuration self).1 = Ok VNone
  ↔ Connector.mapping self !! "configuration" = None
    ∨ Connector.mapping self !! "configuration" = Some VNone.
Proof.
  unfold Connector.configuration, mbind, SE_bind, Connector.self_contains,
    Connector.self_getitem.
  destruct (contains (Connector.mapping self) "configuration") eqn:Hc; cbn.
  - apply contains_true in Hc as [w Hw]. rewrite (getitem_Some _ _ _ Hw), Hw.
    split; [intros [= ->]; auto | intros [|[= ->]]; done].
  - apply contains_false in Hc. rewrite Hc. split; auto.
Qed.

(** What each property of an item returns when its mapping is [d]. *)
Lemma read_mapping (c : Connector.t) (d : dict) :
  Connector.mapping c = d →
  (Connector.serviceId c).1 = getitem d "serviceId"
  ∧ (Connector.connectorType c).1 = getitem d "type"
  ∧ (Connector.adminDisabled c).1 = getitem d "adminDisabled"
  ∧ (Connector.enabled c).1 = getitem d "enabled"
  ∧ (Connector.timezone c).1 = getitem d "timezone"
  ∧ (Connector.configuration c).1 = Ok (default VNone (d !! "configuration")).
Proof.
  intros <-. repeat (split; [reflexivity|]).
  unfold Connector.configuration, mbind, SE_bind, Connector.self_contains,
    Connector.self_getitem.
  destruct (contains (Connector.mapping c) "configuration") eqn:Hc; cbn.
  - apply contains_true in Hc as [w Hw]. by rewrite (getitem_Some _ _ _ Hw), Hw.
  - apply contains_false in Hc. by rewrite Hc.
Qed.

(** ** More on find *)

(** X4. Whatever the arguments of [find], every value of the filter
    mapping it builds is truthy: the query never carries [None], an empty
    string or [False], so no call to [find] asks for [enabled=False]. *)
Theorem find_filters_all_truthy (self : Connectors.t)
    (nameFilter typeFilter enabledFilter serviceId : value) (log : list Request) :
  ∃ (lst : IterableConnectorList.t) (q : dict),
    (Connectors.find self nameFilter typeFilter enabledFilter serviceId log).1
    = Ok lst
    ∧ IterableList._filters lst = Some q
    ∧ (∀ key v, q !! key = Some v → truthy v = true)
    ∧ q !! "enabled" ≠ Some (VBool false)
    ∧ q !! "name" ≠ Some (VStr "").
Proof.
  destruct (find_run self nameFilter typeFilter enabledFilter serviceId log)
    as (q & Hrun & Hn & Ht & He & Hs & Hdom).
  eexists _, q. rewrite Hrun. cbn. do 2 (split; [done|]).
  assert (∀ key v, q !! key = Some v → truthy v = true) as Hall.
  { intros key v Hkv.
    assert (key ∈ dom q) as Hk by (apply elem_of_dom; eauto).
    apply Hdom in Hk. set_unfold in Hk.
    destruct Hk as [[[-> | ->] | ->] | ->].
    - rewrite Hkv in Hn. destruct (truthy nameFilter) eqn:E; congruence.
    - rewrite Hkv in Ht. destruct (truthy typeFilter) eqn:E; congruence.
    - rewrite Hkv in He. destruct (truthy enabledFilter) eqn:E; congruence.
    - rewrite Hkv in Hs. destruct (truthy serviceId) eqn:E; congruence. }
  split; [exact Hall|].
  split; intros H%Hall; discriminate H.
Qed.

(** ** More on create and update *)

Lemma outcome_Ok_iff (apiClient : ApiClient) (expected : Z) (r : Response) :
  (∃ c, (if status_code r =? expected
         then Connectors.new_Connector apiClient (json r)
         else Raise (ApiException r)) = Ok c)
  ↔ status_code r = expected ∧ body_accepted (json r).
Proof.
  destruct (Z.eqb_spec (status_code r) expected) as [Heq|Hne].
  - rewrite new_Connector_accepted. tauto.
  - split; [by intros [c [=]] | tauto].
Qed.

Lemma outcome_Raise_iff (apiClient : ApiClient) (expected : Z) (r : Response)
    (e : exn) :
  (if status_code r =? expected
   then Connectors.new_Connector apiClient (json r)
   else Raise (ApiException r)) = Raise e
  ↔ (status_code r ≠ expected ∧ e = ApiException r)
    ∨ (status_code r = expected ∧ body_raises (json r) e).
Proof.
  destruct (Z.eqb_spec (status_code r) expected) as [Heq|Hne].
  - rewrite new_Connector_raises_iff. tauto.
  - split; [intros [= <-]; auto | intros [[_ ->]|[? _]]; done].
Qed.

(** X5. [create] returns an item exactly when the response to its POST
    has status 201 and a decoded body that is an object holding [id] and
    [type] and no key named [self] or [apiClient]. *)
Theorem create_succeeds_iff (self : Connectors.t)
    (name type serviceId timezone description enabled configuration : value)
    (log : list Request) :
  ∃ body : dict,
    let req := mkRequest POST "api/v0002/historianconnectors" body in
    let r := server (Connectors._apiClient self) log req in
    let run := Connectors.create self name type serviceId timezone description
                 enabled configuration log in
    run.2 = log ++ [req]
    ∧ ((∃ c, run.1 = Ok c) ↔ status_code r = 201 ∧ body_accepted (json r)).
Proof.
  destruct (create_run self name type serviceId timezone description enabled
              configuration log) as (body & Hrun & _).
  exists body. cbn zeta in *. rewrite Hrun. split; [done|].
  apply outcome_Ok_iff.
Qed.

(** X6. What [create] raises, and when: [ApiException] with the response
    exactly on a status other than 201; on 201, [TypeError] exactly when
    the decoded body is not an object or has a key named [self] or
    [apiClient], [KeyError] for [id] exactly when such an object lacks
    [id], [KeyError] for [type] exactly when it has [id] and lacks
    [type]; and nothing else. *)
Theorem create_raises_iff (self : Connectors.t)
    (name type serviceId timezone description enabled configuration : value)
    (log : list Request) :
  ∃ body : dict,
    let req := mkRequest POST "api/v0002/historianconnectors" body in
    let r := server (Connectors._apiClient self) log req in
    let run := Connectors.create self name type serviceId timezone description
                 enabled configuration log in
    run.2 = log ++ [req]
    ∧ ∀ e, run.1 = Raise e
           ↔ (status_code r ≠ 201 ∧ e = ApiException r)
             ∨ (status_code r = 201 ∧ body_raises (json r) e).
Proof.
  destruct (create_run self name type serviceId timezone description enabled
              configuration log) as (body & Hrun & _).
  exists body. cbn zeta in *. rewrite Hrun. split; [done|].
  intros e. apply outcome_Raise_iff.
Qed.

(** X7. [update] returns an item exactly when the response to its PUT has
    status 200 and a decoded body that is an object holding [id] and
    [type] and no key named [self] or [apiClient]. *)
Theorem update_succeeds_iff (self : Connectors.t) (connectorId : string)
    (serviceId name type description timezone enabled configuration : value)
    (log : list Request) :
  ∃ body : dict,
    let req := mkRequest PUT ("api/v0002/historianconnectors/" +:+ connectorId)
                 body in
    let r := server (Connectors._apiClient self) log req in
    let run := Connectors.update self connectorId serviceId name type
                 description timezone enabled configuration log in
    run.2 = log ++ [req]
    ∧ ((∃ c, run.1 = Ok c) ↔ status_code r = 200 ∧ body_accepted (json r)).
Proof.
  destruct (update_run self connectorId serviceId name type description
              timezone enabled configuration log) as (body & Hrun & _).
  exists body. cbn zeta in *. rewrite Hrun. split; [done|].
  apply outcome_Ok_iff.
Qed.

(** X8. What [update] raises, and when: [ApiException] with the response
    exactly on a status other than 200; on 200, [TypeError] exactly when
    the decoded body is not an object or has a key named [self] or
    [apiClient], [KeyError] for [id] exactly when such an object lacks
    [id], [KeyError] for [type] exactly when it has [id] and lacks
    [type]; and nothing else. *)
Theorem update_raises_iff (self : Connectors.t) (connectorId : string)
    (serviceId name type description timezone enabled configuration : value)
    (log : list Request) :
  ∃ body : dict,
    let req := mkRequest PUT ("api/v0002/historianconnectors/" +:+ connectorId)
                 body in
    let r := server (Connectors._apiClient self) log req in
    let run := Connectors.update self connectorId serviceId name type
                 description timezone enabled configuration log in
    run.2 = log ++ [req]
    ∧ ∀ e, run.1 = Raise e
           ↔ (status_code r ≠ 200 ∧ e = ApiException r)
             ∨ (status_code r = 200 ∧ body_raises (json r) e).
Proof.
  destruct (update_run self connectorId serviceId name type description
              timezone enabled configuration log) as (body & Hrun & _).
  exists body. cbn zeta in *. rewrite Hrun. split; [done|].
  intros e. apply outcome_Raise_iff.
Qed.

(** Runs of the error table: a list, [null] and an object with a key
    [apiClient] as body of a 201 response, and an object without [type]. *)
Example create_201_list_body :
  (Connectors.create
     (Connectors.__init__ (always (mkResponse 201 (VList [VDict c1_body]))))
     (VStr "n") cloudant (VStr "s") (VStr "UTC") (VStr "d") (VBool true)
     VNone []).1 = Raise TypeError.
Proof. reflexivity. Qed.

Example create_201_apiClient_key :
  (Connectors.create
     (Connectors.__init__
        (always (mkResponse 201 (VDict (<["apiClient" := VInt 1]> c1_body)))))
     (VStr "n") cloudant (VStr "s") (VStr "UTC") (VStr "d") (VBool true)
     VNone []).1 = Raise TypeError.
Proof. reflexivity. Qed.

Example update_200_without_type :
  (Connectors.update
     (Connectors.__init__
        (always (mkResponse 200 (VDict {["id" := VStr "c1"]}))))
     "c1" (VStr "s") (VStr "n") cloudant (VStr "d") (VStr "UTC") (VBool true)
     VNone []).1 = Raise (KeyError "type").
Proof. reflexivity. Qed.

(** X9. Called with the same field values, [update] sends the body that
    [create] sends plus the key [id], and plus the key [configuration]
    when that argument is not [None]: without these two keys the PUT body
    is the POST body. *)
Theorem update_body_extends_create_body (self self' : Connectors.t)
    (connectorId : string)
    (name type serviceId timezone description enabled configuration
       configuration' : value)
    (log log' : list Request) :
  ∃ posted sent : dict,
    (Connectors.create self name type serviceId timezone description enabled
       configuration log).2
    = log ++ [mkRequest POST "api/v0002/historianconnectors" posted]
    ∧ (Connectors.update self' connectorId serviceId name type description
         timezone enabled configuration' log').2
      = log' ++ [mkRequest PUT ("api/v0002/historianconnectors/" +:+ connectorId)
                   sent]
    ∧ delete "id" (delete "configuration" sent) = posted
    ∧ (configuration' = VNone → delete "id" sent = posted).
Proof.
  eexists _, _. split; [|split].
  - unfold Connectors.create, mbind, SE_bind, post, request, lift, raise.
    cbn. destruct (_ =? 201); reflexivity.
  - unfold Connectors.update, mbind, SE_bind, put, request, lift, raise.
    rewrite format_s_single_item. cbn. destruct (_ =? 200); reflexivity.
  - split; [by destruct (ne_None configuration') | by intros ->].
Qed.

Lemma update_body_extends_create_body_witness :
  ∃ posted sent : dict,
    (Connectors.create
       (Connectors.__init__ (always (mkResponse 201 (VDict c1_body))))
       (VStr "n") cloudant (VStr "s") (VStr "UTC") (VStr "d") (VBool true)
       VNone []).2
    = [mkRequest POST "api/v0002/historianconnectors" posted]
    ∧ (Connectors.update
         (Connectors.__init__ (always (mkResponse 200 (VDict c1_body))))
         "c1" (VStr "s") (VStr "n") cloudant (VStr "d") (VStr "UTC")
         (VBool true) VNone []).2
      = [mkRequest PUT "api/v0002/historianconnectors/c1" sent]
    ∧ delete "id" sent = posted.
Proof.
  destruct (update_body_extends_create_body
              (Connectors.__init__ (always (mkResponse 201 (VDict c1_body))))
              (Connectors.__init__ (always (mkResponse 200 (VDict c1_body))))
              "c1" (VStr "n") cloudant (VStr "s") (VStr "UTC") (VStr "d")
              (VBool true) VNone VNone [] [])
    as (posted & sent & Hp & Hs & _ & Hd).
  exists posted, sent. split; [exact Hp|]. split; [exact Hs|].
  apply Hd. reflexivity.
Defined.

(** X10. The URL of the PUT request determines the connector: two calls
    to [update] that address the same URL were given the same
    [connectorId]. *)
Theorem update_url_determines_id (self1 self2 : Connectors.t)
    (connectorId1 connectorId2 : string)
    (serviceId1 name1 type1 description1 timezone1 enabled1 configuration1 : value)
    (serviceId2 name2 type2 description2 timezone2 enabled2 configuration2 : value)
    (log1 log2 : list Request) :
  url <$> last (Connectors.update self1 connectorId1 serviceId1 name1 type1
                  description1 timezone1 enabled1 configuration1 log1).2
  = url <$> last (Connectors.update self2 connectorId2 serviceId2 name2 type2
                    description2 timezone2 enabled2 configuration2 log2).2 →
  connectorId1 = connectorId2.
Proof.
  destruct (update_run self1 connectorId1 serviceId1 name1 type1 description1
              timezone1 enabled1 configuration1 log1) as (b1 & Hr1 & _).
  destruct (update_run self2 connectorId2 serviceId2 name2 type2 description2
              timezone2 enabled2 configuration2 log2) as (b2 & Hr2 & _).
  cbn zeta in *. rewrite Hr1, Hr2. cbn [snd]. rewrite !last_snoc. cbn.
  intros [= H]. done.
Qed.

Lemma update_url_determines_id_witness : "c1"%string = "c1"%string.
Proof.
  apply (update_url_determines_id
           (Connectors.__init__ (always (mkResponse 200 (VDict c1_body))))
           (Connectors.__init__ (always (mkResponse 404 VNone)))
           "c1" "c1"
           (VStr "s") (VStr "n") cloudant (VStr "d") (VStr "UTC") (VBool true)
           VNone
           (VStr "t") (VStr "m") cloudant (VStr "e") (VStr "GMT") (VBool false)
           (VDict {["x" := VInt 1]}) [] []).
  reflexivity.
Defined.

(** ** Sequences of calls *)

Lemma run_call_sent (self : Connectors.t) (c : call) (log : list Request) :
  ∃ sent, run_call self c log = log ++ sent
          ∧ (λ r, (method r, url r)) <$> sent = option_list (request_line c)
          ∧ Forall (λ r, method r ≠ GET) sent.
Proof.
  destruct c as [n t e s|name type serviceId timezone description enabled
                   configuration|connectorId serviceId name type description
                   timezone enabled configuration]; cbn [run_call request_line].
  - destruct (find_run self n t e s log) as (q & Hrun & _).
    exists []. rewrite Hrun. by rewrite app_nil_r.
  - destruct (create_run self name type serviceId timezone description enabled
                configuration log) as (body & Hrun & _).
    cbn zeta in Hrun. rewrite Hrun. eexists [_].
    split; [done|]. split; [done|]. by repeat constructor.
  - destruct (update_run self connectorId serviceId name type description
                timezone enabled configuration log) as (body & Hrun & _).
    cbn zeta in Hrun. rewrite Hrun. eexists [_].
    split; [done|]. split; [done|]. by repeat constructor.
Qed.

(** X11. Over any sequence of calls to [find], [create] and [update],
    whatever they return or raise, the requests already sent are kept and
    the requests added are, in call order, one POST to the collection URL
    per [create] and one PUT to the item URL per [update]; [find] adds
    none, and no GET is sent. *)
Theorem calls_trace (self : Connectors.t) (cs : list call) (log : list Request) :
  ∃ sent, run_calls self cs log = log ++ sent
          ∧ (λ r, (method r, url r)) <$> sent = omap request_line cs
          ∧ Forall (λ r, method r ≠ GET) sent.
Proof.
  revert log. induction cs as [|c cs IH]; intros log.
  - exists []. by rewrite app_nil_r.
  - cbn [run_calls].
    destruct (run_call_sent self c log) as (s1 & -> & H1 & HF1).
    destruct (IH (log ++ s1)) as (s2 & -> & H2 & HF2).
    exists (s1 ++ s2). rewrite app_assoc, fmap_app, H1, H2.
    split; [done|]. split.
    + cbn [omap list_omap]. by destruct (request_line c).
    + by apply Forall_app.
Qed.

Example calls_trace_run :
  (λ r, (method r, url r)) <$>
    run_calls (Connectors.__init__ (always (mkResponse 500 VNone)))
      [CallFind VNone VNone VNone VNone;
       CallCreate (VStr "n") cloudant (VStr "s") (VStr "UTC") (VStr "d")
         (VBool true) VNone;
       CallFind (VStr "n") VNone VNone VNone;
       CallUpdate "c1" (VStr "s") (VStr "n") cloudant (VStr "d") (VStr "UTC")
         (VBool true) VNone] []
  = [(POST, "api/v0002/historianconnectors");
     (PUT, "api/v0002/historianconnectors/c1")].
Proof. reflexivity. Qed.

(** ** Reading the item that came back *)

Lemma outcome_reads (apiClient : ApiClient) (expected : Z) (r : Response)
    (c : Connector.t) :
  (if status_code r =? expected
   then Connectors.new_Connector apiClient (json r)
   else Raise (ApiException r)) = Ok c →
  ∃ d : dict, status_code r = expected ∧ json r = VDict d
    ∧ Connector._apiClient c = apiClient
    ∧ (Connector.serviceId c).1 = getitem d "serviceId"
    ∧ (Connector.connectorType c).1 = getitem d "type"
    ∧ (Connector.adminDisabled c).1 = getitem d "adminDisabled"
    ∧ (Connector.enabled c).1 = getitem d "enabled"
    ∧ (Connector.timezone c).1 = getitem d "timezone"
    ∧ (Connector.configuration c).1 = Ok (default VNone (d !! "configuration")).
Proof.
  destruct (Z.eqb_spec (status_code r) expected) as [Heq|Hne]; [|discriminate].
  intros [Hj Ha]%new_Connector_Ok_inv.
  exists (Connector.mapping c). repeat (split; [done|]).
  by apply read_mapping.
Qed.

(** X12. The item that [create] returns shows the server's answer, not
    the arguments of the call: each property reads the field of the
    decoded body of the 201 response, [configuration] reading [None] when
    the body has none, and the item holds the transport handle of the
    collection. *)
Theorem create_item_reads_response (self : Connectors.t)
    (name type serviceId timezone description enabled configuration : value)
    (log log' : list Request) (c : Connector.t) :
  Connectors.create self name type serviceId timezone description enabled
    configuration log = (Ok c, log') →
  ∃ (req : Request) (d : dict),
    log' = log ++ [req]
    ∧ status_code (server (Connectors._apiClient self) log req) = 201
    ∧ json (server (Connectors._apiClient self) log req) = VDict d
    ∧ Connector._apiClient c = Connectors._apiClient self
    ∧ (Connector.serviceId c).1 = getitem d "serviceId"
    ∧ (Connector.connectorType c).1 = getitem d "type"
    ∧ (Connector.adminDisabled c).1 = getitem d "adminDisabled"
    ∧ (Connector.enabled c).1 = getitem d "enabled"
    ∧ (Connector.timezone c).1 = getitem d "timezone"
    ∧ (Connector.configuration c).1 = Ok (default VNone (d !! "configuration")).
Proof.
  destruct (create_run self name type serviceId timezone description enabled
              configuration log) as (body & Hrun & _).
  cbn zeta in Hrun. rewrite Hrun. intros [= Hres <-].
  apply outcome_reads in Hres as (d & Hres). eauto.
Qed.

Lemma create_item_reads_response_witness :
  let r := mkResponse 201 (VDict (<["enabled" := VBool false]> c1_body)) in
  let c := built_item (always r) (VStr "c1") cloudant
             (<["enabled" := VBool false]> c1_body) in
  (Connector.enabled c).1 = Ok (VBool false)
  ∧ (Connector.timezone c).1 = Raise (KeyError "timezone").
Proof.
  intros r c.
  destruct (create_item_reads_response (Connectors.__init__ (always r))
              (VStr "n") cloudant (VStr "s") (VStr "UTC") (VStr "d")
              (VBool true) VNone []
              [mkRequest POST "api/v0002/historianconnectors"
                 (<["enabled" := VBool true]> (<["timezone" := VStr "UTC"]> (
                  <["serviceId" := VStr "s"]> (<["description" := VStr "d"]> (
                  <["type" := cloudant]> (<["name" := VStr "n"]> ∅))))))]
              c eq_refl)
    as (req & d & _ & _ & Hj & _ & _ & _ & _ & He & Hz & _).
  injection Hj as <-. split; [exact He | exact Hz].
Defined.

(** X13. The item that [update] returns shows the server's answer, not
    the arguments of the call: each property reads the field of the
    decoded body of the 200 response, [configuration] reading [None] when
    the body has none, and the item holds the transport handle of the
    collection. *)
Theorem update_item_reads_response (self : Connectors.t) (connectorId : string)
    (serviceId name type description timezone enabled configuration : value)
    (log log' : list Request) (c : Connector.t) :
  Connectors.update self connectorId serviceId name type description timezone
    enabled configuration log = (Ok c, log') →
  ∃ (req : Request) (d : dict),
    log' = log ++ [req]
    ∧ status_code (server (Connectors._apiClient self) log req) = 200
    ∧ json (server (Connectors._apiClient self) log req) = VDict d
    ∧ Connector._apiClient c = Connectors._apiClient self
    ∧ (Connector.serviceId c).1 = getitem d "serviceId"
    ∧ (Connector.connectorType c).1 = getitem d "type"
    ∧ (Connector.adminDisabled c).1 = getitem d "adminDisabled"
    ∧ (Connector.enabled c).1 = getitem d "enabled"
    ∧ (Connector.timezone c).1 = getitem d "timezone"
    ∧ (Connector.configuration c).1 = Ok (default VNone (d !! "configuration")).
Proof.
  destruct (update_run self connectorId serviceId name type description
              timezone enabled configuration log) as (body & Hrun & _).
  cbn zeta in Hrun. rewrite Hrun. intros [= Hres <-].
  apply outcome_reads in Hres as (d & Hres). eauto.
Qed.

Lemma update_item_reads_response_witness :
  let r := mkResponse 200 (VDict c1_body) in
  let c := built_item (always r) (VStr "c1") cloudant c1_body in
  (Connector.connectorType c).1 = Ok cloudant
  ∧ (Connector.configuration c).1 = Ok VNone.
Proof.
  intros r c.
  destruct (update_item_reads_response (Connectors.__init__ (always r))
              "c1" (VStr "s") (VStr "n") (VStr "eventstreams") (VStr "d")
              (VStr "UTC") (VBool true) (VDict {["x" := VInt 1]}) []
              [mkRequest PUT "api/v0002/historianconnectors/c1"
                 (<["configuration" := VDict {["x" := VInt 1]}]> (
                  <["enabled" := VBool true]> (<["timezone" := VStr "UTC"]> (
                  <["description" := VStr "d"]> (<["serviceId" := VStr "s"]> (
                  <["type" := VStr "eventstreams"]> (<["name" := VStr "n"]> (
                  <["id" := VStr "c1"]> ∅))))))))]
              c eq_refl)
    as (req & d & _ & _ & Hj & _ & _ & Ht & _ & _ & _ & Hc).
  injection Hj as <-. split; [exact Ht | exact Hc].
Defined.
